(** * Startup funding dashboard (strartup.py): data cleaning, filters, metrics

    A shallow embedding of the pure data-handling parts of [strartup.py]:
    [clean_amount], the column cleaning block, the sidebar filters, the
    top-row metrics, the group-by aggregates, the CSV export and the
    background-image handler.  Amounts are modelled as exact rationals [Q]
    in the statements whose truth does not depend on rounding (which rows
    are null, which groups exist, how groups are ranked against one
    another); the float64 group sum itself is modelled with primitive floats
    ([FloatAgg]).  Strings are Stdlib strings of 8-bit characters (the file
    is decoded as Latin-1). *)

From Stdlib Require Import String Ascii List Bool ZArith QArith Lia Permutation Sorted.
From Stdlib Require Import Floats.
From Stdlib Require OrderedTypeEx.
Import ListNotations.
Open Scope string_scope.

(* ------------------------------------------------------------------ *)
(** ** [clean_amount] (strartup.py lines 18-25) *)

Module Amount.

(** The character class [[\d.]] of the regex [r'[^\d.]']: over Latin-1
    text [\d] matches exactly the ASCII digits. *)
Definition is_digit (c : ascii) : bool :=
  let n := nat_of_ascii c in (48 <=? n)%nat && (n <=? 57)%nat.

Definition keep_char (c : ascii) : bool :=
  is_digit c || (nat_of_ascii c =? 46)%nat.

(** [str.replace(r'[^\d.]', '', regex=True)]: delete every character outside
    the class. *)
Fixpoint strip (s : string) : string :=
  match s with
  | EmptyString => EmptyString
  | String c rest => if keep_char c then String c (strip rest) else strip rest
  end.

(** [astype(str)] of one cell of an object column: a missing cell (NaN)
    becomes the text ["nan"]. *)
Definition cell_str (c : option string) : string :=
  match c with
  | Some s => s
  | None => "nan"
  end.

(** Decimal value of a string of digits ([None] on any other character). *)
Fixpoint digits_acc (acc : Z) (s : string) : option Z :=
  match s with
  | EmptyString => Some acc
  | String c rest =>
      if is_digit c
      then digits_acc (acc * 10 + Z.of_nat (nat_of_ascii c - 48))%Z rest
      else None
  end.

Definition digits_value (s : string) : option Z := digits_acc 0%Z s.

(** Split at the first decimal point. *)
Fixpoint split_dot (s : string) : string * option string :=
  match s with
  | EmptyString => (EmptyString, None)
  | String c rest =>
      if (nat_of_ascii c =? 46)%nat then (EmptyString, Some rest)
      else let (a, b) := split_dot rest in (String c a, b)
  end.

(** [pd.to_numeric(..., errors='coerce')] on the strings that reach it in
    [clean_amount] (only digits and points are left): ["12"], ["12.5"],
    ["12."] and [".5"] parse; [""], ["."] and ["1.2.3"] do not and are
    coerced to NaN ([None]). *)
Definition to_numeric (s : string) : option Q :=
  match split_dot s with
  | (ip, None) =>
      if String.eqb ip "" then None
      else match digits_value ip with
           | Some z => Some (z # 1)
           | None => None
           end
  | (ip, Some fp) =>
      if String.eqb ip "" && String.eqb fp "" then None
      else match digits_value ip, digits_value fp with
           | Some zi, Some zf =>
               let d := (10 ^ Z.of_nat (String.length fp))%Z in
               Some ((zi * d + zf) # Z.to_pos d)
           | _, _ => None
           end
  end.

(** [clean_amount] on one cell of an object (text) column (lines 20-23):
    strip, map [''] to NaN, then [to_numeric(errors='coerce')]. *)
Definition clean_amount (c : option string) : option Q :=
  let s := strip (cell_str c) in
  if String.eqb s "" then None else to_numeric s.

Section Column.

(** [read_csv]'s numeric parser on one text cell: the number the cell
    denotes, or [None] when the cell is not numeric text. *)
Variable parse_float : string -> option Q.

(** [read_csv] gives the amount column a numeric (float64) dtype when every
    non-missing cell is numeric text (a column of missing cells only is
    float64 too); otherwise the column has object dtype and keeps the texts. *)
Definition is_numeric_col (cells : list (option string)) : bool :=
  forallb (fun c => match c with
                    | Some s => match parse_float s with Some _ => true | None => false end
                    | None => true
                    end) cells.

(** One cell of a numeric column as [read_csv] stores it (NaN for a missing
    cell); [pd.to_numeric(col, errors='coerce')] (line 25) keeps it. *)
Definition numeric_cell (c : option string) : option Q :=
  match c with
  | Some s => parse_float s
  | None => None
  end.

(** [clean_amount(col)] on the whole column: [col.dtype == object] selects
    the stripping branch (lines 20-23), any other dtype the plain
    [to_numeric] of line 25. *)
Definition clean_amount_col (cells : list (option string)) : list (option Q) :=
  if is_numeric_col cells then map numeric_cell cells
  else map clean_amount cells.

End Column.

(** A small model of [read_csv]'s numeric parser used for concrete runs: an
    optional sign followed by decimal digits with at most one point (the
    exponent forms are left out). *)
Definition py_float (s : string) : option Q :=
  match s with
  | String c rest =>
      if (nat_of_ascii c =? 45)%nat then option_map Qopp (to_numeric rest)
      else if (nat_of_ascii c =? 43)%nat then to_numeric rest
      else to_numeric s
  | EmptyString => None
  end.

End Amount.

(* ------------------------------------------------------------------ *)
(** ** Tables: the raw CSV rows and the cleaned rows *)

Module Table.

(** One row of [df_raw] as read by [load_data], restricted to the columns
    the cleaning block and the filters touch.  A missing cell is [None].
    The amount cells are kept as the CSV texts; the column's dtype is
    inferred from them ([Amount.is_numeric_col]).  A Year column holds
    integers (a non-integral year would make [astype('Int64')] raise; such
    files are outside this model). *)
Record RawRow := {
  raw_name : option string;       (* 'Startup Name' *)
  raw_city : option string;       (* the first present of the city aliases *)
  raw_industry : option string;   (* 'Industry Vertical' *)
  raw_investor : option string;   (* 'Investors Name' *)
  raw_round : option string;      (* 'Funding Round' *)
  raw_amount : option string;     (* 'Amount in USD' *)
  raw_date : option string;       (* 'Date' *)
  raw_year : option Z             (* 'Year' *)
}.

(** Which optional columns the CSV header has. *)
Record RawTable := {
  has_amount : bool;
  has_date : bool;
  has_year : bool;
  raw_rows : list RawRow
}.

(** One row of [df] after the cleaning block (lines 58-95). *)
Record Row := {
  name : option string;
  city : option string;
  industry : option string;
  investor : option string;
  round : option string;
  amount : option Q;
  year : option Z
}.

Section Cleaning.

(** [pd.to_datetime(cell, errors='coerce').dt.year] for one text cell:
    [None] when the text does not parse (NaT). *)
Variable to_datetime_year : string -> option Z.

Definition date_year (d : option string) : option Z :=
  match d with
  | Some s => to_datetime_year s
  | None => None
  end.

(** [read_csv]'s numeric parser, as in [Amount.clean_amount_col]. *)
Variable parse_float : string -> option Q.

(** Line 79 for one row: [clean_amount] of the whole 'Amount in USD'
    column, whose dtype depends on all of its cells. *)
Definition amount_cell (t : RawTable) (r : RawRow) : option Q :=
  if Amount.is_numeric_col parse_float (map raw_amount (raw_rows t))
  then Amount.numeric_cell parse_float (raw_amount r)
  else Amount.clean_amount (raw_amount r).

(** Lines 65-82 for one row: a missing 'Amount in USD' column is all NaN
    and [clean_amount] of a float column keeps NaN; a missing 'Year' column
    is derived from 'Date' (NaT gives a null year), or is all NaN. *)
Definition clean_row (t : RawTable) (r : RawRow) : Row := {|
  name := raw_name r;
  city := raw_city r;
  industry := raw_industry r;
  investor := raw_investor r;
  round := raw_round r;
  amount := if has_amount t then amount_cell t r else None;
  year := if has_year t then raw_year r
          else if has_date t then date_year (raw_date r) else None
|}.

(** The cleaning block acts column-wise on every row; no row is removed. *)
Definition clean_table (t : RawTable) : list Row :=
  map (clean_row t) (raw_rows t).

End Cleaning.

(** A small model of [pd.to_datetime] used for concrete runs: it reads the
    year of a text that starts with ["YYYY-"] (as in ["2018-07-05"]) and
    rejects texts that do not. *)
Definition iso_year (s : string) : option Z :=
  match s with
  | String a (String b (String c (String d (String m rest)))) =>
      if (nat_of_ascii m =? 45)%nat
      then Amount.digits_value (String a (String b (String c (String d EmptyString))))
      else None
  | _ => None
  end.

(** Line 62, [c.strip()] on a column name: Python's [str.strip()] removes
    leading and trailing whitespace; over Latin-1 these are the codes 9-13,
    28-32, 133 and 160. *)
Definition is_py_space (c : ascii) : bool :=
  let n := nat_of_ascii c in
  ((9 <=? n) && (n <=? 13))%nat || ((28 <=? n) && (n <=? 32))%nat ||
  (n =? 133)%nat || (n =? 160)%nat.

Fixpoint lstrip (s : string) : string :=
  match s with
  | EmptyString => EmptyString
  | String c rest => if is_py_space c then lstrip rest else s
  end.

Fixpoint rstrip (s : string) : string :=
  match s with
  | EmptyString => EmptyString
  | String c rest =>
      let r := rstrip rest in
      if String.eqb r EmptyString && is_py_space c then EmptyString else String c r
  end.

Definition strip_header (s : string) : string := rstrip (lstrip s).

Definition clean_columns (cols : list string) : list string := map strip_header cols.

(** Lines 85-95: the city column is the first of the candidate names that
    the (stripped) header has; with none, an all-NaN 'City location' column
    is added. *)
Definition city_candidates : list string :=
  ["City location"; "City"; "Location"; "Headquarters"].

Fixpoint first_present (cands cols : list string) : option string :=
  match cands with
  | [] => None
  | c :: rest => if existsb (String.eqb c) cols then Some c else first_present rest cols
  end.

Definition resolve_city (cols : list string) : option string :=
  first_present city_candidates (clean_columns cols).

End Table.

(* ------------------------------------------------------------------ *)
(** ** Sidebar selections and the filter block (lines 131-176) *)

Module Filters.
Import Table.

(** The values returned by the five multiselects; the selected years are
    already converted back with [int(y)]. *)
Record Selection := {
  sel_years : list Z;
  sel_cities : list string;
  sel_industries : list string;
  sel_investors : list string;
  sel_rounds : list string
}.

(** [Series.isin(values)] on one cell: a missing cell is never in the set. *)
Definition isin_str (c : option string) (vs : list string) : bool :=
  match c with
  | Some s => existsb (String.eqb s) vs
  | None => false
  end.

Definition isin_Z (c : option Z) (vs : list Z) : bool :=
  match c with
  | Some z => existsb (Z.eqb z) vs
  | None => false
  end.

(** [if selected: filtered = filtered[filtered[col].isin(selected)]]. *)
Definition filter_if {A : Type} (sel : list A) (keep : Row -> bool)
    (rows : list Row) : list Row :=
  match sel with
  | [] => rows
  | _ :: _ => filter keep rows
  end.

(** Lines 159-176: the five filters in the order of the source. *)
Definition apply_filters (s : Selection) (df : list Row) : list Row :=
  let f := df in
  let f := filter_if (sel_years s) (fun r => isin_Z (year r) (sel_years s)) f in
  let f := filter_if (sel_cities s) (fun r => isin_str (city r) (sel_cities s)) f in
  let f := filter_if (sel_industries s)
             (fun r => isin_str (industry r) (sel_industries s)) f in
  let f := filter_if (sel_investors s)
             (fun r => isin_str (investor r) (sel_investors s)) f in
  let f := filter_if (sel_rounds s) (fun r => isin_str (round r) (sel_rounds s)) f in
  f.

(** The five filter categories, to speak about one predicate at a time. *)
Inductive Cat := CYear | CCity | CIndustry | CInvestor | CRound.

Definition all_cats : list Cat := [CYear; CCity; CIndustry; CInvestor; CRound].

Definition cat_eqb (a b : Cat) : bool :=
  match a, b with
  | CYear, CYear | CCity, CCity | CIndustry, CIndustry
  | CInvestor, CInvestor | CRound, CRound => true
  | _, _ => false
  end.

(** Whether the selection of a category is empty. *)
Definition sel_empty (s : Selection) (c : Cat) : bool :=
  match c with
  | CYear => match sel_years s with [] => true | _ => false end
  | CCity => match sel_cities s with [] => true | _ => false end
  | CIndustry => match sel_industries s with [] => true | _ => false end
  | CInvestor => match sel_investors s with [] => true | _ => false end
  | CRound => match sel_rounds s with [] => true | _ => false end
  end.

(** The membership test of a category on one row. *)
Definition cat_member (s : Selection) (c : Cat) (r : Row) : bool :=
  match c with
  | CYear => isin_Z (year r) (sel_years s)
  | CCity => isin_str (city r) (sel_cities s)
  | CIndustry => isin_str (industry r) (sel_industries s)
  | CInvestor => isin_str (investor r) (sel_investors s)
  | CRound => isin_str (round r) (sel_rounds s)
  end.

(** The predicate of a category as it acts in the conjunction: a category
    with an empty selection accepts every row. *)
Definition cat_pred (s : Selection) (c : Cat) (r : Row) : bool :=
  sel_empty s c || cat_member s c r.

(** Lines 133-134: the Year options are the distinct non-null years and the
    default selection is all of them.  The source also sorts them as text;
    the order of the options is not modelled, only which years they hold,
    which is all [isin] looks at. *)
Fixpoint dedup_Z (l : list Z) : list Z :=
  match l with
  | [] => []
  | z :: rest => if existsb (Z.eqb z) rest then dedup_Z rest else z :: dedup_Z rest
  end.

Definition year_options (df : list Row) : list Z :=
  dedup_Z (flat_map (fun r => match year r with Some z => [z] | None => [] end) df).

(** Whether a row has a non-null year. *)
Definition has_year (r : Row) : bool :=
  match year r with Some _ => true | None => false end.

(** The selection on the first run of the page: years at their default,
    the other multiselects at [default=None], i.e. empty. *)
Definition initial_selection (df : list Row) : Selection := {|
  sel_years := year_options df;
  sel_cities := [];
  sel_industries := [];
  sel_investors := [];
  sel_rounds := []
|}.

End Filters.

(* ------------------------------------------------------------------ *)
(** ** Group-by aggregates and the top-row metrics *)

Module Agg.
Import Table.

(** The exact sum of a list of amounts.  pandas adds float64 values, so a
    [qsum] stands for the float sum only where rounding cannot matter: in
    the statements below it decides whether a total is NaN, and it compares
    totals that are exact; the rounded group sum is [FloatAgg.group_sum_f64]. *)
Definition qsum (xs : list Q) : Q := fold_right Qplus 0 xs.

Definition opt_list {A : Type} (o : option A) : list A :=
  match o with Some x => [x] | None => [] end.

(** The non-null amounts of a column, in row order ([skipna]). *)
Definition amounts (rows : list Row) : list Q := flat_map (fun r => opt_list (amount r)) rows.

(** [col.isna().all()]: true on an empty column too. *)
Definition all_amounts_null (rows : list Row) : bool :=
  forallb (fun r => match amount r with None => true | Some _ => false end) rows.

(** Line 182: [filtered['Amount in USD'].sum(min_count=1)]; NaN is [None]. *)
Definition total_funding (rows : list Row) : option Q :=
  match amounts rows with
  | [] => None
  | xs => Some (qsum xs)
  end.

(** Line 184: the mean of the non-null amounts, NaN when all are null.  The
    value is the exact mean; only its being NaN or not is used below. *)
Definition avg_ticket (rows : list Row) : option Q :=
  if all_amounts_null rows then None
  else let xs := amounts rows in
       Some (qsum xs / inject_Z (Z.of_nat (length xs))).

(** Strings in Python's order (codepoint-wise lexicographic). *)
Fixpoint insert_str (x : string) (l : list string) : list string :=
  match l with
  | [] => [x]
  | y :: l' => if String.leb x y then x :: l else y :: insert_str x l'
  end.

Definition sort_str (l : list string) : list string := fold_right insert_str [] l.

(** Distinct values in first-occurrence order ([unique]). *)
Fixpoint dedup_first (seen : list string) (l : list string) : list string :=
  match l with
  | [] => []
  | x :: rest =>
      if existsb (String.eqb x) seen then dedup_first seen rest
      else x :: dedup_first (x :: seen) rest
  end.

Definition keys_of (key : Row -> option string) (rows : list Row) : list string :=
  dedup_first [] (flat_map (fun r => opt_list (key r)) rows).

Definition has_key (key : Row -> option string) (k : string) (r : Row) : bool :=
  match key r with Some k' => String.eqb k' k | None => false end.

(** [df.groupby(key, dropna=True)['Amount in USD'].sum()]: the groups are
    the non-null keys in sorted order ([sort=True]); a group sums its
    non-null amounts, 0 when it has none. *)
Definition group_sum (key : Row -> option string) (rows : list Row)
    : list (string * Q) :=
  map (fun k => (k, qsum (amounts (filter (has_key key k) rows))))
      (sort_str (keys_of key rows)).

(** [Series.idxmax()]: the label of the first maximal value; pandas raises
    on an empty series ([None] here). *)
Fixpoint idxmax_from (best : string * Q) (l : list (string * Q)) : string :=
  match l with
  | [] => fst best
  | p :: rest =>
      if Qle_bool (snd p) (snd best) then idxmax_from best rest
      else idxmax_from p rest
  end.

Definition idxmax (l : list (string * Q)) : option string :=
  match l with
  | [] => None
  | p :: rest => Some (idxmax_from p rest)
  end.

(** The outcome of line 185. *)
Inductive TopCity := TopNA | TopIs (c : string) | TopRaises.

Definition top_city (rows : list Row) : TopCity :=
  if all_amounts_null rows then TopNA
  else match idxmax (group_sum city rows) with
       | Some c => TopIs c
       | None => TopRaises
       end.

(** Lines 187-189: a metric is shown as ["N/A"] when it is NaN. *)
Inductive Shown := ShownNA | ShownNum (q : Q).

Definition show_metric (m : option Q) : Shown :=
  match m with None => ShownNA | Some q => ShownNum q end.

(** [Series.nlargest(n)] (keep='first'): a stable sort by descending value,
    so equal values keep their order in the series, then the first [n]. *)
Fixpoint insert_desc {A : Type} (v : A -> Q) (x : A) (l : list A) : list A :=
  match l with
  | [] => [x]
  | y :: l' => if Qle_bool (v x) (v y) then y :: insert_desc v x l' else x :: l
  end.

Definition sort_desc {A : Type} (v : A -> Q) (l : list A) : list A :=
  fold_left (fun acc x => insert_desc v x acc) l [].


(** Python's strict order on strings. *)
Definition name_lt (a b : string) : Prop := String.compare a b = Lt.



(** [filtered['City location'].value_counts()] (line 240): the non-null
    cities with their row counts, by descending count. *)
Definition value_counts (key : Row -> option string) (rows : list Row)
    : list (string * nat) :=
  sort_desc (fun p => inject_Z (Z.of_nat (snd p)))
    (map (fun k => (k, length (filter (has_key key k) rows))) (keys_of key rows)).

(** Reading a group's value off an aggregate. *)
Fixpoint lookup {B : Type} (k : string) (l : list (string * B)) : option B :=
  match l with
  | [] => None
  | (k', b) :: rest => if String.eqb k' k then Some b else lookup k rest
  end.

(** Line 183: [nunique()] of 'Startup Name' (NaN not counted) when the
    column exists, else the number of rows. *)
Definition startup_count (has_name_col : bool) (rows : list Row) : nat :=
  if has_name_col then length (keys_of name rows) else length rows.

End Agg.

(* ------------------------------------------------------------------ *)
(** ** The float64 group sum *)

Module FloatAgg.

(** pandas' [group_sum] (pandas/_libs/groupby.pyx, pandas >= 1.3) adds the
    values of a group in row order with Kahan compensation:
    [y = val - comp; t = sumx + y; comp = t - sumx - y; sumx = t], resetting
    [comp] to 0 when it is NaN; a NaN value ([val != val]) is skipped. *)
Definition kahan_add (st : float * float) (v : float) : float * float :=
  let (sumx, comp) := st in
  let y := (v - comp)%float in
  let t := (sumx + y)%float in
  let comp' := ((t - sumx) - y)%float in
  (t, if PrimFloat.is_nan comp' then 0%float else comp').

Definition kahan_sum (xs : list float) : float :=
  fst (fold_left kahan_add xs (0%float, 0%float)).

Section Groups.

Context {R : Type}.

(** The group key of a row and its float64 amount ([None] for NaN). *)
Variable key : R -> option string.
Variable value : R -> option float.

Definition fvalues (rows : list R) : list float :=
  flat_map (fun r => match value r with
                     | Some v => if PrimFloat.is_nan v then [] else [v]
                     | None => []
                     end) rows.

Definition fkeys (rows : list R) : list string :=
  Agg.dedup_first [] (flat_map (fun r => Agg.opt_list (key r)) rows).

Definition fhas_key (k : string) (r : R) : bool :=
  match key r with Some k' => String.eqb k' k | None => false end.

(** [df.groupby(key, dropna=True)['Amount in USD'].sum()] in float64: the
    sorted non-null keys, each with the Kahan sum of its values in row
    order. *)
Definition group_sum_f64 (rows : list R) : list (string * float) :=
  map (fun k => (k, kahan_sum (fvalues (filter (fhas_key k) rows))))
      (Agg.sort_str (fkeys rows)).

End Groups.

End FloatAgg.

(* ------------------------------------------------------------------ *)
(** ** CSV export (lines 27-31) and reloading with [load_data] (14-16) *)

Module Csv.

(** Text is a string of Latin-1 characters (what [load_data] produces);
    bytes are modelled as the same 8-bit characters. *)

(** UTF-8 encoding of one character of code point below 256, the default
    encoding of [DataFrame.to_csv] on a binary buffer. *)
Definition utf8_char (c : ascii) : string :=
  let n := nat_of_ascii c in
  if (n <? 128)%nat then String c EmptyString
  else String (ascii_of_nat (192 + n / 64)) (String (ascii_of_nat (128 + n mod 64)) EmptyString).

Fixpoint utf8_encode (s : string) : string :=
  match s with
  | EmptyString => EmptyString
  | String c rest => utf8_char c ++ utf8_encode rest
  end.

(** [encoding="latin1"]: every byte is the character of the same code. *)
Definition latin1_decode (b : string) : string := b.

(** The text [load_data] reads back from the bytes [get_download_link_df]
    wrote for a CSV text [s]. *)
Definition reload_text (s : string) : string := latin1_decode (utf8_encode s).

(** Whether every character of a text is ASCII (code point below 128). *)
Fixpoint is_ascii_text (s : string) : bool :=
  match s with
  | EmptyString => true
  | String c rest => (nat_of_ascii c <? 128)%nat && is_ascii_text rest
  end.

Definition chr (n : nat) : ascii := ascii_of_nat n.
Definition comma := chr 44.
Definition quote := chr 34.
Definition newline := chr 10.

Definition is_special (c : ascii) : bool :=
  let n := nat_of_ascii c in (n =? 44)%nat || (n =? 34)%nat || (n =? 10)%nat || (n =? 13)%nat.

Fixpoint has_special (s : string) : bool :=
  match s with
  | EmptyString => false
  | String c rest => is_special c || has_special rest
  end.

Fixpoint double_quotes (s : string) : string :=
  match s with
  | EmptyString => EmptyString
  | String c rest =>
      if (nat_of_ascii c =? 34)%nat then String c (String c (double_quotes rest))
      else String c (double_quotes rest)
  end.

(** One field under [csv.QUOTE_MINIMAL]; a missing cell is written as
    the empty text ([na_rep='']). *)
Definition write_field (c : option string) : string :=
  match c with
  | None => EmptyString
  | Some s =>
      if has_special s then String quote (double_quotes s ++ String quote EmptyString)
      else s
  end.

Fixpoint join_fields (fs : list string) : string :=
  match fs with
  | [] => EmptyString
  | [f] => f
  | f :: rest => f ++ String comma (join_fields rest)
  end.

Definition write_line (cells : list (option string)) : string :=
  join_fields (map write_field cells) ++ String newline EmptyString.

(** [df.to_csv(index=False)] for the text columns of a table: the header
    row then one line per row. *)
Definition to_csv (header : list string) (rows : list (list (option string))) : string :=
  write_line (map Some header) ++ String.concat EmptyString (map write_line rows).

(** Reading the CSV text back ([pd.read_csv]): a small state machine over
    the characters that splits lines and fields and undoes the quoting. *)
Inductive LexState := Unquoted | InQuotes | AfterQuote.

Fixpoint lex (st : LexState) (field : string) (fields : list string)
    (lines : list (list string)) (s : string) : list (list string) :=
  match s with
  | EmptyString =>
      match field, fields with
      | EmptyString, [] => rev lines
      | _, _ => rev (rev (field :: fields) :: lines)
      end
  | String c rest =>
      let n := nat_of_ascii c in
      match st with
      | InQuotes =>
          if (n =? 34)%nat then lex AfterQuote field fields lines rest
          else lex InQuotes (field ++ String c EmptyString) fields lines rest
      | AfterQuote =>
          if (n =? 34)%nat then lex InQuotes (field ++ String c EmptyString) fields lines rest
          else if (n =? 44)%nat then lex Unquoted EmptyString (field :: fields) lines rest
          else if (n =? 10)%nat then lex Unquoted EmptyString [] (rev (field :: fields) :: lines) rest
          else lex Unquoted (field ++ String c EmptyString) fields lines rest
      | Unquoted =>
          if (n =? 34)%nat then lex InQuotes field fields lines rest
          else if (n =? 44)%nat then lex Unquoted EmptyString (field :: fields) lines rest
          else if (n =? 10)%nat then lex Unquoted EmptyString [] (rev (field :: fields) :: lines) rest
          else lex Unquoted (field ++ String c EmptyString) fields lines rest
      end
  end.

(** pandas' default NA markers. *)
Definition na_values : list string :=
  [""; "#N/A"; "#N/A N/A"; "#NA"; "-1.#IND"; "-1.#QNAN"; "-NaN"; "-nan";
   "1.#IND"; "1.#QNAN"; "<NA>"; "N/A"; "NA"; "NULL"; "NaN"; "None";
   "n/a"; "nan"; "null"].

Definition to_cell (f : string) : option string :=
  if existsb (String.eqb f) na_values then None else Some f.

(** [load_data] on the exported bytes, for text columns: the header (with
    [c.strip()] not needed for the names written here) and the cells. *)
Definition read_csv (text : string) : option (list string * list (list (option string))) :=
  match lex Unquoted EmptyString [] [] text with
  | [] => None
  | h :: body => Some (h, map (map to_cell) body)
  end.

(** The text columns of a cleaned row, in the order the export writes them. *)
Definition text_header : list string :=
  ["Startup Name"; "City location"; "Industry Vertical"; "Investors Name"; "Funding Round"].

Definition text_cells (r : Table.Row) : list (option string) :=
  [Table.name r; Table.city r; Table.industry r; Table.investor r; Table.round r].

(** Exporting the text columns of a filtered table and loading them back. *)
Definition export_reload (rows : list Table.Row)
    : option (list string * list (list (option string))) :=
  read_csv (reload_text (to_csv text_header (map text_cells rows))).

End Csv.

(* ------------------------------------------------------------------ *)
(** ** The background-image handler (lines 115-129) *)

Module Background.

(** The module-level names bound when line 116 runs: the imports of lines
    2-8 and the names the script has assigned so far. *)
Definition globals_at_upload : list string :=
  ["st"; "pd"; "np"; "px"; "go"; "io"; "datetime";
   "load_data"; "clean_amount"; "get_download_link_df"; "get_excel_bytes";
   "export_markdown"; "df_raw"; "df"; "city_col"; "candidate"; "has_geo";
   "theme"; "bg_file"].

(** Python's builtin names that matter here (no module is a builtin). *)
Definition builtins : list string :=
  ["str"; "int"; "len"; "sorted"; "Exception"; "FileNotFoundError"].

Definition bound (globals : list string) (x : string) : bool :=
  existsb (String.eqb x) globals || existsb (String.eqb x) builtins.

(** The outcome of the handler: the page goes on (with the CSS it emitted,
    if any) or an exception ends the script run. *)
Inductive Outcome :=
  | Continue (css : option string)
  | NameError (x : string).

Section Handler.

(** [base64.b64encode(data).decode()], when the name resolves. *)
Variable b64encode : string -> string.

(** [if bg_file:] (an uploaded file object is always truthy), [data =
    bg_file.read()], then the global lookup of [base64] and the CSS. *)
Definition upload_handler (globals : list string) (bg_file : option string) : Outcome :=
  match bg_file with
  | None => Continue None
  | Some data =>
      if bound globals "base64"
      then Continue (Some ("background-image: url(data:image/png;base64," ++
                           b64encode data ++ ")"))
      else NameError "base64"
  end.

End Handler.

End Background.

(* ------------------------------------------------------------------ *)
(** ** Concrete rows used to run the definitions *)

Module Samples.
Import Table.

Definition row (n c : string) (a : option Q) (y : option Z) : Row := {|
  name := Some n; city := Some c; industry := None; investor := None;
  round := None; amount := a; year := y
|}.

Definition pune_2018 := row "Ola" "Pune" (Some (100 # 1)) (Some 2018%Z).
Definition delhi_2019 := row "Zomato" "Delhi" (Some (50 # 1)) (Some 2019%Z).
Definition delhi_noyear := row "Paytm" "Delhi" None None.

Definition rows3 : list Row := [pune_2018; delhi_2019; delhi_noyear].

(** A startup name with a Latin-1 letter: "Caf" followed by e-acute. *)
Definition cafe : string := "Caf" ++ String (ascii_of_nat 233) EmptyString.

Definition cafe_row := row cafe "Pune" (Some (100 # 1)) (Some 2018%Z).


Definition raw (a d : option string) (y : option Z) : RawRow := {|
  raw_name := Some "Ola"; raw_city := Some "Pune"; raw_industry := None;
  raw_investor := None; raw_round := None; raw_amount := a; raw_date := d;
  raw_year := y
|}.

(** A CSV with a Year column whose second amount cell is empty. *)
Definition t_amounts : RawTable := {|
  has_amount := true; has_date := false; has_year := true;
  raw_rows := [raw (Some "USD 100") None (Some 2018%Z); raw None None (Some 2018%Z)]
|}.

(** A CSV whose only amount cell is ["-5000"]: [read_csv] gives the
    amount column a numeric dtype. *)
Definition t_negative : RawTable := {|
  has_amount := true; has_date := false; has_year := true;
  raw_rows := [raw (Some "-5000") None (Some 2018%Z)]
|}.

(** Three float64 rows of one startup, as [groupby('Startup Name')] sees
    them, in two orders: amounts 1, 2^54, 2 and 2^54, 2, 1. *)
Definition f_row (v : float) : string * float := ("Ola", v).

Definition f_rows_a : list (string * float) :=
  [f_row 1%float; f_row 18014398509481984%float; f_row 2%float].

Definition f_rows_b : list (string * float) :=
  [f_row 18014398509481984%float; f_row 2%float; f_row 1%float].

Definition f_key (r : string * float) : option string := Some (fst r).
Definition f_value (r : string * float) : option float := Some (snd r).

(** A CSV without a Year column: one well-formed date, one malformed. *)
Definition t_dates : RawTable := {|
  has_amount := true; has_date := true; has_year := false;
  raw_rows := [raw (Some "100") (Some "2018-07-05") None;
               raw (Some "200") (Some "05/072018") None]
|}.

End Samples.

(* ================================================================== *)
(** * Properties *)

Module AmountFacts.
Import Amount.

Lemma strip_only_kept (s : string) :
  forall i c, String.get i (strip s) = Some c -> keep_char c = true.
Proof.
  induction s as [|a s IH]; intros i c H; simpl in H.
  - destruct i; discriminate.
  - destruct (keep_char a) eqn:Ka.
    + destruct i as [|i]; simpl in H.
      * inversion H; subst; exact Ka.
      * exact (IH i c H).
    + exact (IH i c H).
Qed.

Lemma strip_idem (s : string) : strip (strip s) = strip s.
Proof.
  induction s as [|a s IH]; simpl; [reflexivity|].
  destruct (keep_char a) eqn:Ka; simpl.
  - rewrite Ka, IH; reflexivity.
  - exact IH.
Qed.

(** The object-dtype branch of [clean_amount]: it deletes every character
    other than a digit or a point, so its result depends only on the
    stripped text; an empty stripped text gives null (not zero); the
    function is total (every failure is a [None], nothing raises); and
    ["USD 6,50,000"] gives 650000. *)
Lemma clean_amount_spec :
  (forall s i c, String.get i (strip s) = Some c -> keep_char c = true) /\
  (forall s, clean_amount (Some s) = clean_amount (Some (strip s))) /\
  (forall c, strip (cell_str c) = EmptyString -> clean_amount c = None) /\
  clean_amount None = None /\
  clean_amount (Some "USD 6,50,000") = Some (650000 # 1).
Proof.
  split; [exact strip_only_kept|].
  split; [intro s; unfold clean_amount; simpl; rewrite strip_idem; reflexivity|].
  split; [intros c H; unfold clean_amount; rewrite H; reflexivity|].
  split; reflexivity.
Qed.

(** C1 (counterexample): a CSV whose amount cells are all numeric text is
    read as a numeric column, and [clean_amount] keeps its values without
    stripping: the cell ["-5000"] stays -5000, while parsing its stripped
    text ["5000"] would give 5000. *)
Lemma negative_amount_not_stripped :
  is_numeric_col py_float (map Table.raw_amount (Table.raw_rows Samples.t_negative)) = true /\
  map Table.amount (Table.clean_table Table.iso_year py_float Samples.t_negative)
  = [Some ((-5000) # 1)] /\
  clean_amount (Some (strip "-5000")) = Some (5000 # 1).
Proof. split; [|split]; vm_compute; reflexivity. Qed.

(** C1 (as the code does it): on a text (object-dtype) column,
    [clean_amount] strips every character other than a digit or a point
    from each cell, an empty stripped text gives null, a parse failure gives
    null and nothing raises; ["USD 6,50,000"] gives 650000.  On a column
    whose cells are all numeric (or missing), the values [read_csv] parsed
    are kept as they are, signs included. *)
Theorem clean_amount_col_spec (pf : string -> option Q) (cells : list (option string)) :
  (is_numeric_col pf cells = false -> clean_amount_col pf cells = map clean_amount cells) /\
  (is_numeric_col pf cells = true ->
   clean_amount_col pf cells = map (numeric_cell pf) cells) /\
  (forall s i c, String.get i (strip s) = Some c -> keep_char c = true) /\
  (forall s, clean_amount (Some s) = clean_amount (Some (strip s))) /\
  (forall c, strip (cell_str c) = EmptyString -> clean_amount c = None) /\
  numeric_cell pf None = None /\ clean_amount None = None /\
  clean_amount_col py_float [Some "USD 6,50,000"] = [Some (650000 # 1)].
Proof.
  destruct clean_amount_spec as [H1 [H2 [H3 [H4 _]]]].
  unfold clean_amount_col.
  split; [intro E; rewrite E; reflexivity|].
  split; [intro E; rewrite E; reflexivity|].
  split; [exact H1|split; [exact H2|split; [exact H3|split; [reflexivity|split; [exact H4|]]]]].
  vm_compute; reflexivity.
Qed.

Lemma clean_amount_col_spec_witness :
  (is_numeric_col py_float [Some "-5000"; None] = true /\
   clean_amount_col py_float [Some "-5000"; None] = [Some ((-5000) # 1); None]) /\
  (is_numeric_col py_float [Some "USD 100"; None] = false /\
   clean_amount_col py_float [Some "USD 100"; None] = [Some (100 # 1); None]).
Proof.
  split; split.
  - vm_compute; reflexivity.
  - rewrite (proj1 (proj2 (clean_amount_col_spec py_float [Some "-5000"; None])));
      vm_compute; reflexivity.
  - vm_compute; reflexivity.
  - rewrite (proj1 (clean_amount_col_spec py_float [Some "USD 100"; None]));
      vm_compute; reflexivity.
Defined.

End AmountFacts.

Module FilterFacts.
Import Table Filters.

Lemma filter_if_spec {A : Type} (sel : list A) (keep : Row -> bool) rows :
  filter_if sel keep rows
  = filter (fun r => match sel with [] => true | _ => false end || keep r) rows.
Proof.
  destruct sel; simpl.
  - induction rows as [|r rows IH]; simpl; [reflexivity|f_equal; exact IH].
  - reflexivity.
Qed.

Lemma filter_filter {A : Type} (p q : A -> bool) (l : list A) :
  filter p (filter q l) = filter (fun x => q x && p x) l.
Proof.
  induction l as [|x l IH]; simpl; [reflexivity|].
  destruct (q x); simpl; [destruct (p x)|]; rewrite IH; reflexivity.
Qed.

(** The five sequential filters are one conjunction of the per-category
    predicates, in the original row order. *)
Lemma apply_filters_conj (s : Selection) rows :
  apply_filters s rows = filter (fun r => forallb (fun c => cat_pred s c r) all_cats) rows.
Proof.
  unfold apply_filters.
  rewrite !filter_if_spec, !filter_filter.
  apply filter_ext; intro r.
  unfold cat_pred, sel_empty, cat_member; simpl.
  rewrite !andb_true_r, !andb_assoc; reflexivity.
Qed.

(** C2: a category whose selection is empty restricts nothing: the filtered
    table is the table restricted by the other categories' predicates only
    (in table order); it does not exclude every row. *)
Theorem empty_selection_is_noop (s : Selection) (c : Cat) (rows : list Row) :
  sel_empty s c = true ->
  apply_filters s rows
  = filter (fun r => forallb (fun c' => cat_eqb c' c || cat_pred s c' r) all_cats) rows.
Proof.
  intro He; rewrite apply_filters_conj.
  apply filter_ext; intro r.
  unfold cat_pred; destruct c; simpl in *; rewrite He; simpl;
    rewrite ?orb_true_r; reflexivity.
Qed.

Lemma empty_selection_is_noop_witness :
  let s := {| sel_years := [2018%Z]; sel_cities := []; sel_industries := [];
              sel_investors := []; sel_rounds := [] |} in
  sel_empty s CCity = true /\
  apply_filters s Samples.rows3
  = filter (fun r => forallb (fun c' => cat_eqb c' CCity || cat_pred s c' r) all_cats)
      Samples.rows3.
Proof.
  intro s; split; [reflexivity|].
  apply (empty_selection_is_noop s CCity Samples.rows3); reflexivity.
Defined.

Lemma in_dedup_Z (z : Z) (l : list Z) : In z (dedup_Z l) <-> In z l.
Proof.
  induction l as [|a l IH]; simpl; [tauto|].
  destruct (existsb (Z.eqb a) l) eqn:E; simpl; rewrite IH; [|tauto].
  split; [tauto|]. intros [<-|H]; [|exact H].
  apply existsb_exists in E as [b [Hb Hab]]. apply Z.eqb_eq in Hab; subst; exact Hb.
Qed.

Lemma year_options_in rows r z :
  In r rows -> year r = Some z -> In z (year_options rows).
Proof.
  intros Hr Hy; unfold year_options; apply in_dedup_Z, in_flat_map.
  exists r; rewrite Hy; simpl; auto.
Qed.

Lemma filter_length_lt {A : Type} (p : A -> bool) (l : list A) (x : A) :
  In x l -> p x = false -> (length (filter p l) < length l)%nat.
Proof.
  induction l as [|a l IH]; simpl; [tauto|].
  intros [->|H] Hp.
  - rewrite Hp; pose proof (filter_length_le p l); lia.
  - specialize (IH H Hp); destruct (p a); simpl; lia.
Qed.

Lemma initial_filters_year (rows : list Row) :
  year_options rows <> [] ->
  apply_filters (initial_selection rows) rows = filter has_year rows.
Proof.
  intro Hne; rewrite apply_filters_conj.
  apply filter_ext_in; intros r Hr.
  unfold cat_pred, sel_empty, cat_member, initial_selection, has_year; simpl.
  destruct (year_options rows) as [|z0 zs] eqn:E; [contradiction|]; simpl.
  rewrite <- E, andb_true_r.
  destruct (year r) as [z|] eqn:Hy; simpl; [|reflexivity].
  apply existsb_exists; exists z; split.
  - eapply year_options_in; eauto.
  - apply Z.eqb_refl.
Qed.

(** C10: on the first run the Year multiselect holds every non-null year;
    when there is one, the year filter is active and keeps exactly the rows
    with a non-null year, so a row without a year is not in the default
    view and that view differs from the whole table. *)
Theorem default_years_drop_null_years (rows : list Row) :
  year_options rows <> [] ->
  apply_filters (initial_selection rows) rows = filter has_year rows /\
  ((exists r, In r rows /\ year r = None) ->
   apply_filters (initial_selection rows) rows <> rows).
Proof.
  intro Hne; rewrite (initial_filters_year rows Hne); split; [reflexivity|].
  intros [r [Hr Hy]] Heq.
  assert (Hf : has_year r = false) by (unfold has_year; rewrite Hy; reflexivity).
  pose proof (filter_length_lt has_year rows r Hr Hf) as Hlt.
  rewrite Heq in Hlt; lia.
Qed.

Lemma default_years_drop_null_years_witness :
  year_options Samples.rows3 <> [] /\
  apply_filters (initial_selection Samples.rows3) Samples.rows3
    = [Samples.pune_2018; Samples.delhi_2019] /\
  apply_filters (initial_selection Samples.rows3) Samples.rows3 <> Samples.rows3.
Proof.
  assert (Hne : year_options Samples.rows3 <> []) by discriminate.
  destruct (default_years_drop_null_years Samples.rows3 Hne) as [H1 H2].
  split; [exact Hne|split].
  - rewrite H1; reflexivity.
  - apply H2; exists Samples.delhi_noyear; split; [simpl; tauto|reflexivity].
Defined.

End FilterFacts.

Module CleaningFacts.
Import Table.

(** C4 (counterexample): the cleaning block imputes nothing: in a table with
    a known amount, a row whose amount cell is empty keeps a null amount. *)
Lemma missing_amount_not_imputed :
  map amount (clean_table iso_year Amount.py_float Samples.t_amounts) = [Some (100 # 1); None] /\
  (exists r, In r (clean_table iso_year Amount.py_float Samples.t_amounts) /\ amount r <> None) /\
  (exists r, In r (clean_table iso_year Amount.py_float Samples.t_amounts) /\ amount r = None).
Proof.
  split; [vm_compute; reflexivity|split].
  - exists (clean_row iso_year Amount.py_float Samples.t_amounts
              (Samples.raw (Some "USD 100") None (Some 2018%Z))).
    split; [simpl; tauto|vm_compute; discriminate].
  - exists (clean_row iso_year Amount.py_float Samples.t_amounts
              (Samples.raw None None (Some 2018%Z))).
    split; [simpl; tauto|vm_compute; reflexivity].
Qed.

(** C4 (as the code does it): the cleaned amounts are [clean_amount] of the
    whole amount column, row by row (all null when the column is absent);
    no value is imputed, so a row whose amount cell is missing keeps a null
    amount, whatever the other rows hold. *)
Theorem amount_is_cleaned_cell (f : string -> option Z) (pf : string -> option Q)
    (t : RawTable) :
  map amount (clean_table f pf t)
  = (if has_amount t then Amount.clean_amount_col pf (map raw_amount (raw_rows t))
     else map (fun _ => None) (raw_rows t)) /\
  (forall r, In r (raw_rows t) -> raw_amount r = None ->
   In (clean_row f pf t r) (clean_table f pf t) /\ amount (clean_row f pf t r) = None).
Proof.
  split.
  - unfold clean_table; rewrite map_map; simpl.
    destruct (has_amount t); [|reflexivity].
    unfold amount_cell, Amount.clean_amount_col.
    destruct (Amount.is_numeric_col pf (map raw_amount (raw_rows t)));
      rewrite map_map; reflexivity.
  - intros r Hr Hc; split; [apply in_map; exact Hr|].
    simpl; destruct (has_amount t); [|reflexivity].
    unfold amount_cell; rewrite Hc.
    destruct (Amount.is_numeric_col pf (map raw_amount (raw_rows t))); reflexivity.
Qed.

Lemma amount_is_cleaned_cell_witness :
  let r := Samples.raw None None (Some 2018%Z) in
  In (clean_row iso_year Amount.py_float Samples.t_amounts r)
     (clean_table iso_year Amount.py_float Samples.t_amounts) /\
  amount (clean_row iso_year Amount.py_float Samples.t_amounts r) = None.
Proof.
  intro r.
  apply (proj2 (amount_is_cleaned_cell iso_year Amount.py_float Samples.t_amounts) r);
    [simpl; tauto|reflexivity].
Defined.

(** C5 (counterexample): with no Year column, the row dated ["05/072018"]
    (which does not parse) is kept in the cleaned table with a null year;
    no row is dropped. *)
Lemma unparsed_date_row_kept :
  length (clean_table iso_year Amount.py_float Samples.t_dates)
  = length (raw_rows Samples.t_dates) /\
  map year (clean_table iso_year Amount.py_float Samples.t_dates) = [Some 2018%Z; None].
Proof. split; vm_compute; reflexivity. Qed.

(** C5 (as the code does it): the cleaning keeps every row; when the Year
    column is derived from Date, a row whose date does not parse stays in
    the table with a null year.  Nothing is dropped, so nothing is
    counted. *)
Theorem unparsed_date_gives_null_year (f : string -> option Z) (pf : string -> option Q)
    (t : RawTable) :
  length (clean_table f pf t) = length (raw_rows t) /\
  (forall r, In r (raw_rows t) -> has_year t = false -> has_date t = true ->
   date_year f (raw_date r) = None ->
   In (clean_row f pf t r) (clean_table f pf t) /\ year (clean_row f pf t r) = None).
Proof.
  split.
  - unfold clean_table; apply length_map.
  - intros r Hr Hy Hd Hn; split.
    + apply in_map; exact Hr.
    + simpl; rewrite Hy, Hd; exact Hn.
Qed.

Lemma unparsed_date_gives_null_year_witness :
  let r := Samples.raw (Some "200") (Some "05/072018") None in
  In (clean_row iso_year Amount.py_float Samples.t_dates r)
     (clean_table iso_year Amount.py_float Samples.t_dates) /\
  year (clean_row iso_year Amount.py_float Samples.t_dates r) = None.
Proof.
  intro r.
  apply (proj2 (unparsed_date_gives_null_year iso_year Amount.py_float Samples.t_dates) r);
    [simpl; tauto|reflexivity|reflexivity|reflexivity].
Defined.

End CleaningFacts.

Module MetricFacts.
Import Table Agg.

Lemma amounts_all_null (rows : list Row) :
  (forall r, In r rows -> amount r = None) -> amounts rows = [].
Proof.
  induction rows as [|r rows IH]; intro H; simpl; [reflexivity|].
  rewrite (H r (or_introl eq_refl)); simpl.
  apply IH; intros r' Hr'; apply H; right; exact Hr'.
Qed.

Lemma all_amounts_null_true (rows : list Row) :
  (forall r, In r rows -> amount r = None) -> all_amounts_null rows = true.
Proof.
  intro H; apply forallb_forall; intros r Hr; rewrite (H r Hr); reflexivity.
Qed.

(** C3: when every row of the filtered table has a null amount (also when
    it has no row), total funding and the average ticket are NaN and shown
    as ["N/A"], never as a number such as 0, and the top city is ["N/A"]. *)
Theorem all_null_metrics_unavailable (rows : list Row) :
  (forall r, In r rows -> amount r = None) ->
  total_funding rows = None /\ avg_ticket rows = None /\ top_city rows = TopNA /\
  show_metric (total_funding rows) = ShownNA /\
  show_metric (avg_ticket rows) = ShownNA.
Proof.
  intro H.
  assert (Ht : total_funding rows = None)
    by (unfold total_funding; rewrite (amounts_all_null rows H); reflexivity).
  assert (Ha : avg_ticket rows = None)
    by (unfold avg_ticket; rewrite (all_amounts_null_true rows H); reflexivity).
  rewrite Ht, Ha; repeat split.
  unfold top_city; rewrite (all_amounts_null_true rows H); reflexivity.
Qed.

Lemma all_null_metrics_unavailable_witness :
  total_funding [Samples.delhi_noyear] = None /\
  show_metric (total_funding [Samples.delhi_noyear]) = ShownNA /\
  top_city [Samples.delhi_noyear] = TopNA.
Proof.
  destruct (all_null_metrics_unavailable [Samples.delhi_noyear]) as [H1 [_ [H3 [H4 _]]]].
  - intros r [<-|[]]; reflexivity.
  - split; [exact H1|split; [exact H4|exact H3]].
Defined.

End MetricFacts.

Module CsvFacts.
Import Csv.

Lemma utf8_encode_length (s : string) : (String.length s <= String.length (utf8_encode s))%nat.
Proof.
  induction s as [|c s IH]; simpl; [lia|].
  unfold utf8_char; destruct (nat_of_ascii c <? 128)%nat; simpl; lia.
Qed.

(** C8 (counterexample): exporting a filtered table whose startup name is
    "Caf" + e-acute and loading the CSV back with [load_data] does not give
    the same cells back. *)
Lemma csv_export_reload_changes_text :
  export_reload [Samples.cafe_row]
  <> Some (text_header, [text_cells Samples.cafe_row]).
Proof. vm_compute; intro H; discriminate H. Qed.

(** C8 (as the code does it): [get_download_link_df] writes UTF-8 and
    [load_data] decodes Latin-1, so the text read back equals the exported
    text exactly when that text is ASCII. *)
Theorem reload_text_identity_iff_ascii (s : string) :
  reload_text s = s <-> is_ascii_text s = true.
Proof.
  unfold reload_text, latin1_decode.
  induction s as [|c s IH]; simpl; [tauto|].
  unfold utf8_char; destruct (nat_of_ascii c <? 128)%nat eqn:Hc; simpl.
  - rewrite <- IH; split; [intro H; injection H; tauto|intro H; rewrite H; reflexivity].
  - split; [|discriminate]; intro H.
    apply (f_equal String.length) in H; simpl in H.
    pose proof (utf8_encode_length s); lia.
Qed.

End CsvFacts.

Module BackgroundFacts.
Import Background.

(** C9: [base64] is never imported, so an uploaded background image makes
    the handler raise [NameError] on [base64]; with no upload the branch is
    skipped and the script goes on. *)
Theorem upload_raises_name_error (b64encode : string -> string) (data : string) :
  upload_handler b64encode globals_at_upload (Some data) = NameError "base64" /\
  upload_handler b64encode globals_at_upload None = Continue None.
Proof. split; reflexivity. Qed.

End BackgroundFacts.

Module AggFacts.
Import Table Agg.

Lemma Permutation_filter' {A : Type} (p : A -> bool) (l l' : list A) :
  Permutation l l' -> Permutation (filter p l) (filter p l').
Proof.
  induction 1; simpl.
  - constructor.
  - destruct (p x); [constructor|]; assumption.
  - destruct (p x), (p y); try constructor; reflexivity.
  - econstructor; eassumption.
Qed.

Lemma qsum_perm (l l' : list Q) : Permutation l l' -> qsum l == qsum l'.
Proof.
  induction 1; simpl.
  - reflexivity.
  - rewrite IHPermutation; reflexivity.
  - ring.
  - rewrite IHPermutation1; exact IHPermutation2.
Qed.

Lemma amounts_perm (rows rows' : list Row) :
  Permutation rows rows' -> Permutation (amounts rows) (amounts rows').
Proof. intro H; unfold amounts; rewrite H; reflexivity. Qed.

Lemma existsb_eqb_In (k : string) (l : list string) :
  existsb (String.eqb k) l = true <-> In k l.
Proof.
  rewrite existsb_exists; split.
  - intros [x [Hx Hk]]; apply String.eqb_eq in Hk; subst; exact Hx.
  - intro H; exists k; split; [exact H|apply String.eqb_refl].
Qed.

Lemma insert_str_perm (x : string) (l : list string) :
  Permutation (insert_str x l) (x :: l).
Proof.
  induction l as [|y l IH]; simpl; [reflexivity|].
  destruct (String.leb x y); [reflexivity|].
  rewrite IH; apply perm_swap.
Qed.

Lemma sort_str_perm (l : list string) : Permutation (sort_str l) l.
Proof.
  induction l as [|x l IH]; simpl; [reflexivity|].
  rewrite insert_str_perm, IH; reflexivity.
Qed.

Lemma in_dedup_first (k : string) (l seen : list string) :
  In k (dedup_first seen l) <-> In k l /\ ~ In k seen.
Proof.
  revert seen; induction l as [|x l IH]; intro seen; simpl; [tauto|].
  destruct (existsb (String.eqb x) seen) eqn:E.
  - apply existsb_eqb_In in E; rewrite IH.
    split; [tauto|]. intros [[<-|H] Hn]; [contradiction|tauto].
  - simpl; rewrite IH; simpl.
    assert (~ In x seen) by (intro Hx; apply existsb_eqb_In in Hx; congruence).
    split; [intros [<-|[H1 H2]]; tauto|].
    intros [[<-|H1] H2]; [left; reflexivity|].
    destruct (String.eqb_spec x k); [left; exact e|right; split; [exact H1|]].
    intros [<-|H3]; [congruence|contradiction].
Qed.

Lemma nodup_dedup_first (l seen : list string) : NoDup (dedup_first seen l).
Proof.
  revert seen; induction l as [|x l IH]; intro seen; simpl; [constructor|].
  destruct (existsb (String.eqb x) seen); [apply IH|].
  constructor; [|apply IH].
  rewrite in_dedup_first; intros [_ H]; apply H; left; reflexivity.
Qed.

Lemma in_keys_of (key : Row -> option string) (rows : list Row) (k : string) :
  In k (keys_of key rows) <-> In k (flat_map (fun r => opt_list (key r)) rows).
Proof. unfold keys_of; rewrite in_dedup_first; simpl; tauto. Qed.

Lemma keys_of_perm_in (key : Row -> option string) (rows rows' : list Row) (k : string) :
  Permutation rows rows' -> (In k (keys_of key rows) <-> In k (keys_of key rows')).
Proof.
  intro H; rewrite !in_keys_of.
  split; apply Permutation_in; [rewrite H|rewrite <- H]; reflexivity.
Qed.

(** The group list of a [group_sum] holds the same keys, whatever
    the row order. *)
Lemma group_keys_perm (key : Row -> option string) (rows rows' : list Row) (k : string) :
  Permutation rows rows' ->
  existsb (String.eqb k) (sort_str (keys_of key rows))
  = existsb (String.eqb k) (sort_str (keys_of key rows')).
Proof.
  intro H.
  destruct (existsb (String.eqb k) (sort_str (keys_of key rows'))) eqn:E;
    [|apply not_true_iff_false in E; apply not_true_iff_false];
    rewrite existsb_eqb_In in *; rewrite sort_str_perm in *;
    [rewrite keys_of_perm_in; eassumption|].
  intro Hk; apply E; rewrite <- keys_of_perm_in; eassumption.
Qed.

Lemma lookup_map_pair {B : Type} (f : string -> B) (k : string) (ks : list string) :
  lookup k (map (fun k' => (k', f k')) ks)
  = if existsb (String.eqb k) ks then Some (f k) else None.
Proof.
  induction ks as [|k' ks IH]; simpl; [reflexivity|].
  rewrite (String.eqb_sym k k').
  destruct (String.eqb_spec k' k); [subst; reflexivity|exact IH].
Qed.

Lemma insert_desc_perm {A : Type} (v : A -> Q) (x : A) (l : list A) :
  Permutation (insert_desc v x l) (x :: l).
Proof.
  induction l as [|y l IH]; simpl; [reflexivity|].
  destruct (Qle_bool (v x) (v y)); [|reflexivity].
  rewrite IH; apply perm_swap.
Qed.

Lemma sort_desc_perm_acc {A : Type} (v : A -> Q) (l acc : list A) :
  Permutation (fold_left (fun a x => insert_desc v x a) l acc) (l ++ acc).
Proof.
  revert acc; induction l as [|x l IH]; intro acc; simpl; [reflexivity|].
  rewrite IH, insert_desc_perm; symmetry; apply Permutation_middle.
Qed.

Lemma sort_desc_perm {A : Type} (v : A -> Q) (l : list A) :
  Permutation (sort_desc v l) l.
Proof. unfold sort_desc; rewrite sort_desc_perm_acc, app_nil_r; reflexivity. Qed.

(** On a list with distinct keys, [lookup] does not depend on the order. *)
Lemma lookup_perm {B : Type} (k : string) (L L' : list (string * B)) :
  NoDup (map fst L) -> Permutation L L' -> lookup k L = lookup k L'.
Proof.
  intros Hnd HP; revert Hnd; induction HP; intro Hnd; simpl.
  - reflexivity.
  - destruct x as [k' b]; simpl in Hnd; inversion Hnd; subst.
    destruct (String.eqb k' k); [reflexivity|auto].
  - destruct x as [kx bx], y as [ky byy]; simpl in Hnd.
    inversion Hnd as [|? ? Hnin Hnd']; subst; simpl in Hnin.
    destruct (String.eqb_spec ky k), (String.eqb_spec kx k); subst; try reflexivity.
    exfalso; apply Hnin; left; reflexivity.
  - rewrite (IHHP1 Hnd); apply IHHP2.
    eapply Permutation_NoDup; [apply Permutation_map; exact HP1|exact Hnd].
Qed.

Lemma count_perm (key : Row -> option string) (k : string) (rows rows' : list Row) :
  Permutation rows rows' ->
  length (filter (has_key key k) rows) = length (filter (has_key key k) rows').
Proof. intro H; apply Permutation_length, Permutation_filter', H. Qed.

Lemma lookup_value_counts (key : Row -> option string) (rows : list Row) (k : string) :
  lookup k (value_counts key rows)
  = if existsb (String.eqb k) (keys_of key rows)
    then Some (length (filter (has_key key k) rows)) else None.
Proof.
  unfold value_counts.
  rewrite (lookup_perm k _ (map (fun k' => (k', length (filter (has_key key k') rows)))
                                (keys_of key rows))).
  - apply (lookup_map_pair (fun k' => length (filter (has_key key k') rows))).
  - eapply Permutation_NoDup; [apply Permutation_map; symmetry; apply sort_desc_perm|].
    rewrite map_map; simpl; rewrite map_id; apply nodup_dedup_first.
  - apply sort_desc_perm.
Qed.

(** [value_counts] gives every key the same count, whatever the row
    order. *)
Lemma value_counts_perm (key : Row -> option string) (rows rows' : list Row) :
  Permutation rows rows' ->
  forall k, lookup k (value_counts key rows) = lookup k (value_counts key rows').
Proof.
  intros HP k.
  rewrite !lookup_value_counts, (count_perm key k rows rows' HP).
  assert (E : existsb (String.eqb k) (keys_of key rows)
              = existsb (String.eqb k) (keys_of key rows')).
  { destruct (existsb (String.eqb k) (keys_of key rows')) eqn:E';
      [|apply not_true_iff_false in E'; apply not_true_iff_false];
      rewrite existsb_eqb_In in *; [rewrite keys_of_perm_in; eassumption|].
    intro Hk; apply E'; rewrite <- keys_of_perm_in; eassumption. }
  rewrite E; reflexivity.
Qed.

End AggFacts.

Module TopFacts.
Import Table Agg AggFacts.

#[local] Instance name_lt_trans : Transitive name_lt.
Proof.
  intros a b c Hab Hbc; unfold name_lt in *.
  apply OrderedTypeEx.String_as_OT.cmp_lt in Hab, Hbc.
  apply OrderedTypeEx.String_as_OT.cmp_lt.
  eapply OrderedTypeEx.String_as_OT.lt_trans; eassumption.
Qed.

Definition str_le (a b : string) : Prop := String.leb a b = true.

Lemma leb_false_flip (a b : string) : String.leb a b = false -> String.leb b a = true.
Proof. intro H; destruct (String.leb_total a b) as [H'|H']; [congruence|exact H']. Qed.

Lemma insert_str_sorted (x : string) (l : list string) :
  Sorted str_le l -> Sorted str_le (insert_str x l).
Proof.
  induction l as [|y l IH]; simpl; intro Hs; [repeat constructor|].
  destruct (String.leb x y) eqn:E; [constructor; [exact Hs|constructor; exact E]|].
  apply Sorted_inv in Hs as [Hs Hhd].
  constructor; [apply IH, Hs|].
  destruct l as [|z l]; simpl; [constructor; apply leb_false_flip, E|].
  destruct (String.leb x z); constructor; [apply leb_false_flip, E|].
  inversion Hhd; assumption.
Qed.

Lemma sort_str_sorted (l : list string) : Sorted str_le (sort_str l).
Proof. induction l; simpl; [constructor|apply insert_str_sorted; assumption]. Qed.

Lemma le_neq_lt (a b : string) : str_le a b -> a <> b -> name_lt a b.
Proof.
  unfold str_le, String.leb, name_lt; intros H Hne.
  destruct (String.compare a b) eqn:E; try reflexivity; [|discriminate].
  apply String.compare_eq_iff in E; contradiction.
Qed.

Lemma sorted_nodup_strict (l : list string) :
  Sorted str_le l -> NoDup l -> Sorted name_lt l.
Proof.
  induction 1 as [|a l Hs IH Hhd]; intro Hnd; constructor.
  - apply IH; inversion Hnd; assumption.
  - inversion Hhd as [|b l' Hab]; subst; constructor.
    apply le_neq_lt; [exact Hab|]; intros ->.
    inversion Hnd; subst; simpl in *; tauto.
Qed.








End TopFacts.

Module FloatFacts.
Import Table Agg AggFacts TopFacts FloatAgg.

Lemma name_lt_irrefl (a : string) : ~ name_lt a a.
Proof.
  unfold name_lt; intro H.
  apply OrderedTypeEx.String_as_OT.cmp_lt in H.
  exact (OrderedTypeEx.String_as_OT.lt_not_eq a a H eq_refl).
Qed.

(** Two strictly ascending lists with the same elements are equal. *)
Lemma strict_sorted_unique (l1 l2 : list string) :
  StronglySorted name_lt l1 -> StronglySorted name_lt l2 ->
  (forall x, In x l1 <-> In x l2) -> l1 = l2.
Proof.
  revert l2; induction l1 as [|a l1 IH]; intros l2 S1 S2 H.
  - destruct l2 as [|b l2]; [reflexivity|].
    exfalso; apply (proj2 (H b)); left; reflexivity.
  - destruct l2 as [|b l2]; [exfalso; apply (proj1 (H a)); left; reflexivity|].
    apply StronglySorted_inv in S1 as [S1 F1]; apply StronglySorted_inv in S2 as [S2 F2].
    rewrite Forall_forall in F1, F2.
    assert (Eab : a = b).
    { destruct (string_dec a b) as [|Hne]; [assumption|exfalso].
      assert (Ha : In a l2)
        by (destruct (proj1 (H a) (or_introl eq_refl)) as [E|E]; [congruence|exact E]).
      assert (Hb : In b l1)
        by (destruct (proj2 (H b) (or_introl eq_refl)) as [E|E]; [congruence|exact E]).
      apply (name_lt_irrefl a), (name_lt_trans a b a); [apply F1, Hb|apply F2, Ha]. }
    subst b; f_equal; apply IH; [exact S1|exact S2|].
    intro x; split; intro Hx.
    + destruct (proj1 (H x) (or_intror Hx)) as [E|E]; [|exact E].
      exfalso; subst x; apply (name_lt_irrefl a), F1, Hx.
    + destruct (proj2 (H x) (or_intror Hx)) as [E|E]; [|exact E].
      exfalso; subst x; apply (name_lt_irrefl a), F2, Hx.
Qed.

Section Groups.

Context {R : Type}.
Variable key : R -> option string.
Variable value : R -> option float.

Lemma in_fkeys (rows : list R) (k : string) :
  In k (fkeys key rows) <-> In k (flat_map (fun r => opt_list (key r)) rows).
Proof. unfold fkeys; rewrite in_dedup_first; simpl; tauto. Qed.

Lemma fkeys_strict (rows : list R) : StronglySorted name_lt (sort_str (fkeys key rows)).
Proof.
  apply Sorted_StronglySorted; [exact name_lt_trans|].
  apply sorted_nodup_strict; [apply sort_str_sorted|].
  eapply Permutation_NoDup; [symmetry; apply sort_str_perm|apply nodup_dedup_first].
Qed.

Lemma group_sum_f64_keys (rows : list R) :
  map fst (group_sum_f64 key value rows) = sort_str (fkeys key rows).
Proof. unfold group_sum_f64; rewrite map_map; simpl; apply map_id. Qed.

End Groups.

(** C7 (counterexample): the float64 groupby sum depends on the row order.
    The same three amounts of one startup, 1, 2^54 and 2, total 2^54 in
    that order and 2^54 + 4 in the order 2^54, 2, 1. *)
Lemma group_sum_f64_order_dependent :
  Permutation Samples.f_rows_a Samples.f_rows_b /\
  group_sum_f64 Samples.f_key Samples.f_value Samples.f_rows_a
  = [("Ola", 18014398509481984%float)] /\
  group_sum_f64 Samples.f_key Samples.f_value Samples.f_rows_b
  = [("Ola", 18014398509481988%float)] /\
  18014398509481984%float <> 18014398509481988%float.
Proof.
  split; [|split; [vm_compute; reflexivity|split; [vm_compute; reflexivity|]]].
  - unfold Samples.f_rows_a, Samples.f_rows_b.
    eapply perm_trans; [apply perm_swap|apply perm_skip, perm_swap].
  - intro H.
    assert (E : PrimFloat.eqb 18014398509481984%float 18014398509481988%float = true)
      by (rewrite H; vm_compute; reflexivity).
    vm_compute in E; discriminate.
Qed.

(** C7 (as the code does it): for any reordering of the rows,
    [value_counts] (count_by) gives every group the same count, and the
    float64 groupby sum (sum_by) has the same groups, each summing the same
    values; only the order in which a group's values are added, and so the
    float64 rounding of its total, depends on the row order. *)
Theorem aggregates_perm_groups :
  (forall (key : Row -> option string) (rows rows' : list Row),
   Permutation rows rows' ->
   forall k, lookup k (value_counts key rows) = lookup k (value_counts key rows')) /\
  (forall (R : Type) (key : R -> option string) (value : R -> option float)
          (rows rows' : list R),
   Permutation rows rows' ->
   map fst (group_sum_f64 key value rows) = map fst (group_sum_f64 key value rows') /\
   (forall k, Permutation (fvalues value (filter (fhas_key key k) rows))
                          (fvalues value (filter (fhas_key key k) rows')))).
Proof.
  split; [exact value_counts_perm|].
  intros R key value rows rows' HP; split.
  - rewrite !group_sum_f64_keys.
    apply strict_sorted_unique; [apply fkeys_strict|apply fkeys_strict|].
    intro x; split; intro Hx.
    + apply (Permutation_in _ (sort_str_perm _)), in_fkeys in Hx.
      apply (Permutation_in _ (Permutation_sym (sort_str_perm _))), in_fkeys.
      apply (Permutation_in _ (Permutation_flat_map _ HP)), Hx.
    + apply (Permutation_in _ (sort_str_perm _)), in_fkeys in Hx.
      apply (Permutation_in _ (Permutation_sym (sort_str_perm _))), in_fkeys.
      apply (Permutation_in _ (Permutation_flat_map _ (Permutation_sym HP))), Hx.
  - intro k; unfold fvalues; apply Permutation_flat_map, Permutation_filter', HP.
Qed.

Lemma aggregates_perm_groups_witness :
  Permutation Samples.f_rows_a Samples.f_rows_b /\
  map fst (group_sum_f64 Samples.f_key Samples.f_value Samples.f_rows_a)
  = map fst (group_sum_f64 Samples.f_key Samples.f_value Samples.f_rows_b) /\
  Permutation Samples.rows3 [Samples.delhi_noyear; Samples.pune_2018; Samples.delhi_2019] /\
  lookup "Delhi" (value_counts city Samples.rows3)
  = lookup "Delhi" (value_counts city
      [Samples.delhi_noyear; Samples.pune_2018; Samples.delhi_2019]).
Proof.
  assert (HF : Permutation Samples.f_rows_a Samples.f_rows_b).
  { unfold Samples.f_rows_a, Samples.f_rows_b.
    eapply perm_trans; [apply perm_swap|apply perm_skip, perm_swap]. }
  assert (HP : Permutation Samples.rows3
                 [Samples.delhi_noyear; Samples.pune_2018; Samples.delhi_2019]).
  { unfold Samples.rows3.
    eapply perm_trans; [apply perm_skip, perm_swap|apply perm_swap]. }
  split; [exact HF|split; [|split; [exact HP|]]].
  - exact (proj1 ((proj2 aggregates_perm_groups) _ Samples.f_key Samples.f_value _ _ HF)).
  - exact ((proj1 aggregates_perm_groups) city _ _ HP "Delhi").
Defined.

End FloatFacts.

(* ================================================================== *)
(** * Further properties of the code *)

Module ExtraAmount.
Import Amount.

Lemma digits_acc_nonneg (s : string) :
  forall acc z, (0 <= acc)%Z -> digits_acc acc s = Some z -> (0 <= z)%Z.
Proof.
  induction s as [|c s IH]; simpl; intros acc z Ha H.
  - inversion H; subst; exact Ha.
  - destruct (is_digit c); [|discriminate].
    eapply IH; [|exact H]; lia.
Qed.

Lemma to_numeric_nonneg (s : string) (q : Q) : to_numeric s = Some q -> 0 <= q.
Proof.
  unfold to_numeric, digits_value.
  destruct (split_dot s) as [ip [fp|]].
  - destruct (String.eqb ip "" && String.eqb fp ""); [discriminate|].
    destruct (digits_acc 0 ip) as [zi|] eqn:Ei; [|discriminate].
    destruct (digits_acc 0 fp) as [zf|] eqn:Ef; [|discriminate].
    intro H; inversion H; subst; clear H.
    apply digits_acc_nonneg in Ei; [|lia]. apply digits_acc_nonneg in Ef; [|lia].
    assert (Hd : (0 <= 10 ^ Z.of_nat (String.length fp))%Z) by (apply Z.pow_nonneg; lia).
    unfold Qle; simpl; nia.
  - destruct (String.eqb ip ""); [discriminate|].
    destruct (digits_acc 0 ip) as [zi|] eqn:Ei; [|discriminate].
    intro H; inversion H; subst.
    apply digits_acc_nonneg in Ei; [|lia]. unfold Qle; simpl; lia.
Qed.

(** X1: on a text (object-dtype) amount column, [clean_amount] never yields
    a negative amount (a minus sign is one of the characters it deletes). *)
Theorem clean_amount_nonneg (c : option string) (q : Q) :
  clean_amount c = Some q -> 0 <= q.
Proof.
  unfold clean_amount; destruct (String.eqb _ _); [discriminate|].
  apply to_numeric_nonneg.
Qed.

Lemma clean_amount_nonneg_witness :
  clean_amount (Some "-5,000") = Some (5000 # 1) /\ 0 <= 5000 # 1.
Proof.
  split; [reflexivity|].
  apply (clean_amount_nonneg (Some "-5,000")); reflexivity.
Defined.

Definition dot : ascii := ascii_of_nat 46.

Lemma digits_acc_dot (u v : string) :
  forall acc, digits_acc acc (u ++ String dot v) = None.
Proof.
  induction u as [|c u IH]; intro acc; simpl; [reflexivity|].
  destruct (is_digit c); [apply IH|reflexivity].
Qed.

Lemma str_app_assoc (x y z : string) : x ++ (y ++ z) = (x ++ y) ++ z.
Proof. induction x as [|ch x IH]; simpl; [reflexivity|rewrite IH; reflexivity]. Qed.

Lemma split_dot_app (a r : string) :
  exists a' u, split_dot (a ++ String dot r) = (a', Some (u ++ r)).
Proof.
  induction a as [|c a IH]; simpl.
  - exists EmptyString, EmptyString; reflexivity.
  - destruct (nat_of_ascii c =? 46)%nat.
    + exists EmptyString, (a ++ String dot EmptyString).
      rewrite <- str_app_assoc; reflexivity.
    + destruct IH as [a' [u E]]; rewrite E; exists (String c a'), u; reflexivity.
Qed.

(** X2: when the characters [clean_amount] keeps hold two decimal points
    (as in ["Rs. 1,000.50"], kept as [".1000.50"]), the amount is null. *)
Theorem clean_amount_two_points_null (s a b c : string) :
  strip s = a ++ String dot (b ++ String dot c) -> clean_amount (Some s) = None.
Proof.
  intro H; unfold clean_amount, cell_str; rewrite H.
  destruct (String.eqb (a ++ String dot (b ++ String dot c)) "") eqn:E.
  - reflexivity.
  - unfold to_numeric, digits_value.
    destruct (split_dot_app a (b ++ String dot c)) as [a' [u Es]]; rewrite Es.
    destruct (String.eqb a' "" && String.eqb (u ++ b ++ String dot c) ""); [reflexivity|].
    rewrite str_app_assoc, digits_acc_dot.
    destruct (digits_acc 0 a'); reflexivity.
Qed.

Lemma clean_amount_two_points_null_witness :
  strip "Rs. 1,000.50" = "" ++ String dot ("1000" ++ String dot "50") /\
  clean_amount (Some "Rs. 1,000.50") = None.
Proof.
  split; [reflexivity|].
  apply (clean_amount_two_points_null "Rs. 1,000.50" "" "1000" "50"); reflexivity.
Defined.

End ExtraAmount.

Module ExtraFilters.
Import Table Filters FilterFacts Agg.

Lemma in_amounts (x : Q) (rows : list Row) :
  In x (amounts rows) <-> exists r, In r rows /\ amount r = Some x.
Proof.
  unfold amounts; rewrite in_flat_map; split.
  - intros [r [Hr Hx]]; exists r; split; [exact Hr|].
    destruct (amount r); simpl in Hx; [destruct Hx as [<-|[]]; reflexivity|contradiction].
  - intros [r [Hr Hx]]; exists r; split; [exact Hr|rewrite Hx; left; reflexivity].
Qed.

Lemma qsum_nonneg (xs : list Q) : (forall x, In x xs -> 0 <= x) -> 0 <= qsum xs.
Proof.
  induction xs as [|x xs IH]; simpl; intro H; [apply Qle_refl|].
  apply (Qplus_le_compat 0 x 0 (qsum xs)); [apply H; left; reflexivity|].
  apply IH; intros y Hy; apply H; right; exact Hy.
Qed.

(** X3: when the amount column is text (object dtype), every amount of the
    cleaned table is non-negative, so the total funding of any filtered view
    of it is non-negative too (a sum of non-negative numbers stays
    non-negative under float64 rounding as well). *)
Theorem filtered_total_nonneg (f : string -> option Z) (pf : string -> option Q)
    (t : RawTable) (s : Selection) (q : Q) :
  Amount.is_numeric_col pf (map raw_amount (raw_rows t)) = false ->
  total_funding (apply_filters s (clean_table f pf t)) = Some q -> 0 <= q.
Proof.
  unfold total_funding; intros Hobj H.
  assert (Hall : forall y, In y (amounts (apply_filters s (clean_table f pf t))) -> 0 <= y).
  { intros y Hy.
    apply in_amounts in Hy as [r [Hr Hy]].
    rewrite apply_filters_conj in Hr; apply filter_In in Hr as [Hr _].
    unfold clean_table in Hr; apply in_map_iff in Hr as [rr [<- _]].
    simpl in Hy; destruct (has_amount t); [|discriminate].
    unfold amount_cell in Hy; rewrite Hobj in Hy.
    exact (ExtraAmount.clean_amount_nonneg _ _ Hy). }
  destruct (amounts (apply_filters s (clean_table f pf t))) as [|x xs];
    [discriminate|inversion H; subst].
  exact (qsum_nonneg (x :: xs) Hall).
Qed.

Lemma filtered_total_nonneg_witness :
  Amount.is_numeric_col Amount.py_float (map raw_amount (raw_rows Samples.t_amounts)) = false /\
  total_funding (apply_filters (initial_selection (clean_table iso_year Amount.py_float Samples.t_amounts))
                   (clean_table iso_year Amount.py_float Samples.t_amounts)) = Some (100 # 1) /\
  0 <= 100 # 1.
Proof.
  split; [vm_compute; reflexivity|split; [vm_compute; reflexivity|]].
  apply (filtered_total_nonneg iso_year Amount.py_float Samples.t_amounts
           (initial_selection (clean_table iso_year Amount.py_float Samples.t_amounts)));
    vm_compute; reflexivity.
Defined.

(** X4: a row is in the filtered table exactly when it is in the table and
    passes the test of every category (an empty selection passes all rows,
    a non-empty one needs the row's value, so a null value fails). *)
Theorem apply_filters_in (s : Selection) (rows : list Row) (r : Row) :
  In r (apply_filters s rows) <->
  In r rows /\ (forall c, cat_pred s c r = true).
Proof.
  rewrite apply_filters_conj, filter_In, forallb_forall; split.
  - intros [Hr H]; split; [exact Hr|intro c; apply H; destruct c; simpl; tauto].
  - intros [Hr H]; split; [exact Hr|intros c _; apply H].
Qed.

(** X5: filtering is idempotent, and two selections applied one after the
    other give the same table in either order. *)
Theorem apply_filters_idem_comm (s1 s2 : Selection) (rows : list Row) :
  apply_filters s1 (apply_filters s1 rows) = apply_filters s1 rows /\
  apply_filters s1 (apply_filters s2 rows) = apply_filters s2 (apply_filters s1 rows).
Proof.
  rewrite !apply_filters_conj, !filter_filter; split; apply filter_ext; intro r.
  - destruct (forallb _ _); reflexivity.
  - apply andb_comm.
Qed.

(** X6: the Year options are the distinct non-null years of the table. *)
Theorem year_options_spec (rows : list Row) :
  NoDup (year_options rows) /\
  (forall z, In z (year_options rows) <-> exists r, In r rows /\ year r = Some z).
Proof.
  unfold year_options; split.
  - generalize (flat_map (fun r => match year r with Some z => [z] | None => [] end) rows).
    induction l as [|a l IH]; simpl; [constructor|].
    destruct (existsb (Z.eqb a) l) eqn:E; [exact IH|].
    constructor; [|exact IH].
    rewrite in_dedup_Z; intro Ha.
    assert (existsb (Z.eqb a) l = true) by (apply existsb_exists; exists a; split; [exact Ha|apply Z.eqb_refl]).
    congruence.
  - intro z; rewrite in_dedup_Z, in_flat_map; split.
    + intros [r [Hr Hz]]; exists r; split; [exact Hr|].
      destruct (year r); simpl in Hz; [destruct Hz as [<-|[]]; reflexivity|contradiction].
    + intros [r [Hr Hz]]; exists r; rewrite Hz; simpl; tauto.
Qed.

Lemma first_present_spec (cands cols : list string) (c : string) :
  first_present cands cols = Some c <->
  exists pre post, cands = (pre ++ c :: post)%list /\ In c cols /\
                   (forall c', In c' pre -> ~ In c' cols).
Proof.
  induction cands as [|x cands IH]; simpl.
  - split; [discriminate|intros [pre [post [E _]]]; destruct pre; discriminate].
  - destruct (existsb (String.eqb x) cols) eqn:E.
    + apply AggFacts.existsb_eqb_In in E; split.
      * intro H; inversion H; subst; exists [], cands; simpl; tauto.
      * intros [pre [post [Eq [Hc Hpre]]]]; destruct pre as [|p pre]; simpl in Eq.
        -- inversion Eq; reflexivity.
        -- inversion Eq; subst; exfalso; apply (Hpre p); [left; reflexivity|exact E].
    + rewrite IH; split.
      * intros [pre [post [Eq [Hc Hpre]]]]; exists (x :: pre), post; subst; split; [reflexivity|].
        split; [exact Hc|]; intros c' [<-|Hc']; [|apply Hpre, Hc'].
        intro Hx; apply AggFacts.existsb_eqb_In in Hx; congruence.
      * intros [pre [post [Eq [Hc Hpre]]]]; destruct pre as [|p pre]; simpl in Eq.
        -- inversion Eq; subst; apply AggFacts.existsb_eqb_In in Hc; congruence.
        -- inversion Eq; subst; exists pre, post; split; [reflexivity|split; [exact Hc|]].
           intros c' Hc'; apply Hpre; right; exact Hc'.
Qed.

(** X7: after stripping the header names, the city column is the first of
    'City location', 'City', 'Location', 'Headquarters' the header has:
    each candidate before it is absent; and there is none (the placeholder
    column is made) exactly when no candidate is present. *)
Theorem resolve_city_spec (cols : list string) :
  (forall c, resolve_city cols = Some c <->
     exists pre post, city_candidates = (pre ++ c :: post)%list /\ In c (clean_columns cols) /\
                      (forall c', In c' pre -> ~ In c' (clean_columns cols))) /\
  (resolve_city cols = None <->
     forall c, In c city_candidates -> ~ In c (clean_columns cols)).
Proof.
  split; [intro c; apply first_present_spec|].
  unfold resolve_city; generalize (clean_columns cols) as cl; intro cl.
  generalize city_candidates as cands; intro cands.
  induction cands as [|x cands IH]; simpl; [tauto|].
  destruct (existsb (String.eqb x) cl) eqn:E.
  - apply AggFacts.existsb_eqb_In in E; split; [discriminate|].
    intro H; exfalso; exact (H x (or_introl eq_refl) E).
  - rewrite IH; split.
    + intros H c [<-|Hc]; [intro Hx; apply AggFacts.existsb_eqb_In in Hx; congruence|].
      apply H, Hc.
    + intros H c Hc; apply H; right; exact Hc.
Qed.

End ExtraFilters.

Module ExtraMetrics.
Import Table Agg AggFacts.



Lemma idxmax_from_spec (l : list (string * Q)) :
  forall best, exists v, (In (idxmax_from best l, v) (best :: l)) /\
                         (forall p, In p (best :: l) -> snd p <= v).
Proof.
  induction l as [|p l IH]; intro best; simpl.
  - exists (snd best); split; [left; destruct best; reflexivity|].
    intros q [<-|[]]; apply Qle_refl.
  - destruct (Qle_bool (snd p) (snd best)) eqn:E.
    + destruct (IH best) as [v [Hin Hmax]]; exists v; split.
      * destruct Hin as [H|H]; [left; exact H|right; right; exact H].
      * intros q [<-|[<-|Hq]]; [apply Hmax; left; reflexivity| |apply Hmax; right; exact Hq].
        apply Qle_bool_iff in E; eapply Qle_trans; [exact E|apply Hmax; left; reflexivity].
    + destruct (IH p) as [v [Hin Hmax]]; exists v; split.
      * destruct Hin as [H|H]; right; [left; exact H|right; exact H].
      * intros q [<-|[<-|Hq]]; [| apply Hmax; left; reflexivity|apply Hmax; right; exact Hq].
        assert (Hlt : snd best < snd p)
          by (apply Qnot_le_lt; intro Hc; apply Qle_bool_iff in Hc; congruence).
        apply Qlt_le_weak; eapply Qlt_le_trans; [exact Hlt|apply Hmax; left; reflexivity].
Qed.

Lemma idxmax_spec (l : list (string * Q)) (k : string) :
  idxmax l = Some k -> exists v, In (k, v) l /\ forall p, In p l -> snd p <= v.
Proof.
  destruct l as [|p l]; simpl; [discriminate|]; intro H; inversion H; subst.
  apply idxmax_from_spec.
Qed.

Lemma in_group_sum_key (key : Row -> option string) (rows : list Row) (k : string) (v : Q) :
  In (k, v) (group_sum key rows) -> exists r, In r rows /\ key r = Some k.
Proof.
  unfold group_sum; intro H; apply in_map_iff in H as [k' [Ek Hk]]; inversion Ek; subst.
  apply (Permutation_in _ (sort_str_perm _)), in_keys_of, in_flat_map in Hk as [r [Hr Hk]].
  exists r; split; [exact Hr|].
  destruct (key r); simpl in Hk; [destruct Hk as [<-|[]]; reflexivity|contradiction].
Qed.

(** X9: when line 185 names a top city, it is the city of some row and
    its total is at least the total of every city. *)
Theorem top_city_is_max (rows : list Row) (c : string) :
  top_city rows = TopIs c ->
  (exists r, In r rows /\ city r = Some c) /\
  exists v, In (c, v) (group_sum city rows) /\
            forall p, In p (group_sum city rows) -> snd p <= v.
Proof.
  unfold top_city; destruct (all_amounts_null rows); [discriminate|].
  destruct (idxmax (group_sum city rows)) as [k|] eqn:E; [|discriminate].
  intro H; inversion H; subst.
  destruct (idxmax_spec _ _ E) as [v [Hin Hmax]].
  split; [eapply in_group_sum_key; exact Hin|exists v; tauto].
Qed.

Lemma top_city_is_max_witness :
  top_city Samples.rows3 = TopIs "Pune" /\ exists r, In r Samples.rows3 /\ city r = Some "Pune".
Proof.
  assert (H : top_city Samples.rows3 = TopIs "Pune") by (vm_compute; reflexivity).
  split; [exact H|exact (proj1 (top_city_is_max _ _ H))].
Defined.

Lemma group_sum_nil (key : Row -> option string) (rows : list Row) :
  group_sum key rows = [] <-> forall r, In r rows -> key r = None.
Proof.
  unfold group_sum; split.
  - intros H r Hr; destruct (key r) as [k|] eqn:Ek; [exfalso|reflexivity].
    assert (Hk : In k (sort_str (keys_of key rows))).
    { apply (Permutation_in _ (Permutation_sym (sort_str_perm _))), in_keys_of, in_flat_map.
      exists r; rewrite Ek; simpl; tauto. }
    destruct (sort_str (keys_of key rows)); [contradiction|discriminate].
  - intro H; destruct (sort_str (keys_of key rows)) as [|k ks] eqn:E; [reflexivity|exfalso].
    assert (Hk : In k (sort_str (keys_of key rows))) by (rewrite E; left; reflexivity).
    apply (Permutation_in _ (sort_str_perm _)), in_keys_of, in_flat_map in Hk as [r [Hr Hk]].
    rewrite (H r Hr) in Hk; contradiction.
Qed.

(** X10: line 185 raises (idxmax of an empty series) exactly when some
    amount is known but no row has a city. *)
Theorem top_city_raises_iff (rows : list Row) :
  top_city rows = TopRaises <->
  all_amounts_null rows = false /\ (forall r, In r rows -> city r = None).
Proof.
  unfold top_city; rewrite <- group_sum_nil.
  destruct (all_amounts_null rows); [split; [discriminate|intros [H _]; discriminate]|].
  destruct (group_sum city rows) as [|p l]; simpl; [tauto|].
  split; [discriminate|intros [_ H]; discriminate].
Qed.

Lemma top_city_raises_iff_witness :
  top_city [{| name := Some "Ola"; city := None; industry := None; investor := None;
               round := None; amount := Some (1 # 1); year := None |}] = TopRaises.
Proof.
  apply top_city_raises_iff; split; [reflexivity|].
  intros r [<-|[]]; reflexivity.
Defined.

(** X11: a group whose rows all have a null amount is kept by the groupby
    sum with total 0 (not dropped, not NaN). *)
Theorem group_sum_all_null_zero (key : Row -> option string) (rows : list Row) (k : string) :
  (exists r, In r rows /\ key r = Some k) ->
  (forall r, In r rows -> key r = Some k -> amount r = None) ->
  lookup k (group_sum key rows) = Some 0.
Proof.
  intros [r0 [Hr0 Hk0]] Hnull; unfold group_sum.
  rewrite (lookup_map_pair (fun k' => qsum (amounts (filter (has_key key k') rows)))).
  assert (Hin : existsb (String.eqb k) (sort_str (keys_of key rows)) = true).
  { apply existsb_eqb_In, (Permutation_in _ (Permutation_sym (sort_str_perm _))).
    apply in_keys_of, in_flat_map; exists r0; rewrite Hk0; simpl; tauto. }
  rewrite Hin, (MetricFacts.amounts_all_null (filter (has_key key k) rows)); [reflexivity|].
  intros r Hr; apply filter_In in Hr as [Hr Hh]; apply Hnull; [exact Hr|].
  unfold has_key in Hh; destruct (key r); [|discriminate].
  apply String.eqb_eq in Hh; subst; reflexivity.
Qed.

Lemma group_sum_all_null_zero_witness :
  lookup "Paytm" (group_sum name Samples.rows3) = Some 0.
Proof.
  apply group_sum_all_null_zero.
  - exists Samples.delhi_noyear; split; [simpl; tauto|reflexivity].
  - intros r [<-|[<-|[<-|[]]]]; vm_compute; congruence.
Defined.

(** X12: the number of startups shown (line 183) never exceeds the number
    of rows of the filtered table. *)
Theorem startup_count_le_rows (has_name_col : bool) (rows : list Row) :
  (startup_count has_name_col rows <= length rows)%nat.
Proof.
  unfold startup_count; destruct has_name_col; [|lia].
  transitivity (length (flat_map (fun r => opt_list (name r)) rows)).
  - apply NoDup_incl_length; [apply nodup_dedup_first|].
    intros k Hk; apply in_keys_of; exact Hk.
  - induction rows as [|r rows IH]; simpl; [lia|].
    rewrite length_app; destruct (name r); simpl; lia.
Qed.

End ExtraMetrics.

Module ExtraGroups.
Import Table Agg AggFacts TopFacts.

Lemma group_keys_strict_any (key : Row -> option string) (rows : list Row) :
  StronglySorted name_lt (sort_str (keys_of key rows)).
Proof.
  apply Sorted_StronglySorted; [exact name_lt_trans|].
  apply sorted_nodup_strict; [apply sort_str_sorted|].
  eapply Permutation_NoDup; [symmetry; apply sort_str_perm|apply nodup_dedup_first].
Qed.

(** X13: the groups of a groupby sum are the distinct non-null keys, in
    strictly ascending order. *)
Theorem group_sum_keys (key : Row -> option string) (rows : list Row) :
  StronglySorted name_lt (map fst (group_sum key rows)) /\
  (forall k, In k (map fst (group_sum key rows)) <-> exists r, In r rows /\ key r = Some k).
Proof.
  unfold group_sum; rewrite map_map; simpl; rewrite map_id; split.
  - apply group_keys_strict_any.
  - intro k; split.
    + intro Hk; apply (Permutation_in _ (sort_str_perm _)), in_keys_of, in_flat_map in Hk.
      destruct Hk as [r [Hr Hk]]; exists r; split; [exact Hr|].
      destruct (key r); simpl in Hk; [destruct Hk as [<-|[]]; reflexivity|contradiction].
    + intros [r [Hr Hk]].
      apply (Permutation_in _ (Permutation_sym (sort_str_perm _))), in_keys_of, in_flat_map.
      exists r; rewrite Hk; simpl; tauto.
Qed.

Lemma sorted_impl {A : Type} (R R' : A -> A -> Prop) (l : list A) :
  (forall a b, R a b -> R' a b) -> Sorted R l -> Sorted R' l.
Proof.
  intros H; induction 1 as [|a l Hs IH Hh]; constructor; [exact IH|].
  destruct Hh; constructor; apply H; assumption.
Qed.

Lemma insert_desc_sorted_weak {A : Type} (v : A -> Q) (x : A) (l : list A) :
  Sorted (fun a b => v b <= v a) l -> Sorted (fun a b => v b <= v a) (insert_desc v x l).
Proof.
  induction l as [|y l IH]; simpl; intro Hs; [repeat constructor|].
  destruct (Qle_bool (v x) (v y)) eqn:E.
  - apply Sorted_inv in Hs as [Hs Hh]; constructor; [apply IH, Hs|].
    destruct l as [|z l]; simpl; [constructor; apply Qle_bool_iff, E|].
    destruct (Qle_bool (v x) (v z)); constructor; [inversion Hh; assumption|apply Qle_bool_iff, E].
  - constructor; [exact Hs|constructor].
    apply Qlt_le_weak, Qnot_le_lt; intro H; apply Qle_bool_iff in H; congruence.
Qed.

Lemma sort_desc_sorted_weak {A : Type} (v : A -> Q) (l : list A) :
  Sorted (fun a b => v b <= v a) (sort_desc v l).
Proof.
  unfold sort_desc; generalize (@nil A) (Sorted_nil (fun a b => v b <= v a)).
  induction l as [|x l IH]; intros acc Hacc; simpl; [exact Hacc|].
  apply IH, insert_desc_sorted_weak, Hacc.
Qed.

(** X15: [value_counts] of line 240 lists each non-null city once, by
    non-increasing count, with its number of rows, which is positive. *)
Theorem value_counts_spec (key : Row -> option string) (rows : list Row) :
  Sorted (fun a b => (snd b <= snd a)%nat) (value_counts key rows) /\
  NoDup (map fst (value_counts key rows)) /\
  (forall p, In p (value_counts key rows) ->
     snd p = length (filter (has_key key (fst p)) rows) /\ (0 < snd p)%nat).
Proof.
  assert (HP := sort_desc_perm (fun p : string * nat => inject_Z (Z.of_nat (snd p)))
                  (map (fun k => (k, length (filter (has_key key k) rows))) (keys_of key rows))).
  split; [|split].
  - eapply sorted_impl; [|apply sort_desc_sorted_weak].
    intros a b H; unfold Qle in H; simpl in H; lia.
  - eapply Permutation_NoDup; [apply Permutation_map; symmetry; exact HP|].
    rewrite map_map; simpl; rewrite map_id; apply nodup_dedup_first.
  - intros p Hp; unfold value_counts in Hp.
    apply (Permutation_in _ HP), in_map_iff in Hp as [k [<- Hk]]; simpl; split; [reflexivity|].
    apply in_keys_of, in_flat_map in Hk as [r [Hr Hk]].
    assert (Hf : In r (filter (has_key key k) rows)).
    { apply filter_In; split; [exact Hr|unfold has_key].
      destruct (key r); simpl in Hk; [destruct Hk as [<-|[]]; apply String.eqb_refl|contradiction]. }
    destruct (filter (has_key key k) rows); [contradiction|simpl; lia].
Qed.


End ExtraGroups.
